(** * HealthTrackerApp: the Android JNI registration glue

A shallow embedding of [android/app/src/main/jni]:
[MainComponentsRegistry.h], [MainComponentsRegistry.cpp] and
[MainApplicationModuleProvider.h].

The glue calls into two libraries that are not part of the repository:
React Native ([CoreComponentsRegistry]) and fbjni ([HybridClass]).  Their
entry points are the fields of the class [HostFramework]; every statement
about the glue is made for an arbitrary instance of that class. *)

From Stdlib Require Import String List.
From ExtLib Require Import Structures.Monad.
Import ListNotations.
Import MonadNotation.

#[local] Open Scope string_scope.
#[local] Open Scope monad_scope.

(** ** C++ values and calls *)

(** [std::shared_ptr<T>]: either null or the address of the shared object.
  The index [T] is the pointee type; constness of the pointee is not
  tracked. *)
Inductive shared_ptr (T : Type) : Type :=
  | nullptr
  | shared_at (addr : nat).

Arguments nullptr {T}.
Arguments shared_at {T} addr.

(** How a C++ call ends: it returns a value, or an exception leaves it. *)
Inductive outcome (A : Type) : Type :=
  | Returned (a : A)
  | Thrown (what : string).

Arguments Returned {A} a.
Arguments Thrown {A} what.

Definition returned {A : Type} (o : outcome A) : bool :=
  match o with
  | Returned _ => true
  | Thrown _ => false
  end.

(** A call runs in the process state [W] and leaves a state behind, also
  when an exception leaves it. *)
Definition Exec (W A : Type) : Type := W -> outcome A * W.

#[export] Instance Monad_Exec {W : Type} : Monad (Exec W) :=
  {| ret := fun _ a w => (Returned a, w);
     bind := fun _ _ m k w =>
       match m w with
       | (Returned a, w') => k a w'
       | (Thrown e, w') => (Thrown e, w')
       end |}.

(** ** fbjni *)

Module jni.

(** A Java class object and a [HybridData] object, by their JVM handles. *)
Inductive jclass : Type := JClass (handle : nat).
Inductive jhybriddata : Type := JHybridData (handle : nat).

Record alias_ref (T : Type) : Type := mk_alias_ref { alias_get : T }.
Record local_ref (T : Type) : Type := mk_local_ref { local_get : T }.

Arguments mk_alias_ref {T} _.
Arguments alias_get {T} _.
Arguments mk_local_ref {T} _.
Arguments local_get {T} _.

(** A function that managed code can call through JNI: a static native
  method taking the calling class. *)
Definition NativeFunction (W : Type) : Type :=
  alias_ref jclass -> Exec W (local_ref jhybriddata).

(** An entry of a native-method table: the managed-side name and the
  native function behind it. *)
Record JNINativeMethod (W : Type) : Type := mk_JNINativeMethod {
  name : string;
  fnPtr : NativeFunction W
}.

Arguments mk_JNINativeMethod {W} _ _.
Arguments name {W} _.
Arguments fnPtr {W} _.

Definition makeNativeMethod {W : Type} (n : string) (f : NativeFunction W)
  : JNINativeMethod W :=
  mk_JNINativeMethod n f.

(** What [HybridClass<T>] asks of [T]: the descriptor of the Java class
  that [T] is bound to. *)
Class HybridClass (T : Type) : Type := {
  kJavaDescriptor : string
}.

Arguments kJavaDescriptor T {_}.

End jni.

Import jni.

(** ** The host framework *)

(** Pointee types of React Native that the glue only passes around. *)
Inductive ComponentDescriptorProviderRegistry : Type := .
Inductive TurboModule : Type := .
Inductive CallInvoker : Type := .

(** The calls that the glue makes into React Native and fbjni.  [World] is
  all the state these libraries own: the process-wide provider registry,
  the JVM objects, the native-method tables. *)
Class HostFramework : Type := {
  World : Type;
  (** [CoreComponentsRegistry::sharedProviderRegistry()] *)
  CoreComponentsRegistry_sharedProviderRegistry :
    Exec World (shared_ptr ComponentDescriptorProviderRegistry);
  (** [HybridClass<T>::makeCxxInstance()] *)
  makeCxxInstance :
    forall (T : Type) `{HybridClass T}, Exec World (local_ref jhybriddata);
  (** [HybridClass<T>::registerHybrid(methods)] *)
  registerHybrid :
    forall (T : Type) `{HybridClass T},
      list (JNINativeMethod World) -> Exec World unit
}.

Arguments makeCxxInstance {_} T {_}.
Arguments registerHybrid {_} T {_} _.

(** ** The glue: namespace [facebook::react] *)

Module react.

(** [class MainComponentsRegistry]: the class declares no data member. *)
Record MainComponentsRegistry : Type := MainComponentsRegistry_object { }.

(** [: public facebook::jni::HybridClass<MainComponentsRegistry>] with
  [constexpr static auto kJavaDescriptor]. *)
#[export] Instance MainComponentsRegistry_HybridClass
  : HybridClass MainComponentsRegistry :=
  {| kJavaDescriptor := "Lcom/healthtracker/MainComponentsRegistry;" |}.

Section Glue.

Context {host : HostFramework}.

(** [MainComponentsRegistry::MainComponentsRegistry() {}] *)
Definition MainComponentsRegistry_MainComponentsRegistry
  : Exec World MainComponentsRegistry :=
  ret MainComponentsRegistry_object.

(** [MainComponentsRegistry::sharedProviderRegistry()] *)
Definition sharedProviderRegistry (this : MainComponentsRegistry)
  : Exec World (shared_ptr ComponentDescriptorProviderRegistry) :=
  providerRegistry <- CoreComponentsRegistry_sharedProviderRegistry ;;
  ret providerRegistry.

(** [MainComponentsRegistry::initHybrid(jni::alias_ref<jclass>)]: the
  parameter is unnamed in the source. *)
Definition initHybrid (_ : alias_ref jclass)
  : Exec World (local_ref jhybriddata) :=
  instance <- makeCxxInstance MainComponentsRegistry ;;
  ret instance.

(** [MainComponentsRegistry::registerNatives()] *)
Definition registerNatives : Exec World unit :=
  registerHybrid MainComponentsRegistry
    [ makeNativeMethod "initHybrid" initHybrid ].

(** Modelled from the spec: the body of [MainApplicationModuleProvider],
  which the header only declares.  The spec calls it "a stub returning
  no native modules" and its result "always empty/none". *)
Definition MainApplicationModuleProvider
  (name : string) (jsInvoker : shared_ptr CallInvoker)
  : Exec World (shared_ptr TurboModule) :=
  ret nullptr.

End Glue.

End react.

Import react.

(** ** Runs of the glue *)

Section Runs.

Context {host : HostFramework}.

(** The entry points of [MainComponentsRegistry.cpp], as the host runtime
  can call them. *)
Inductive Operation : Type :=
  | call_constructor
  | call_sharedProviderRegistry (this : MainComponentsRegistry)
  | call_initHybrid (cls : alias_ref jclass)
  | call_registerNatives.

(** The state that a call leaves behind. *)
Definition after (op : Operation) (w : World) : World :=
  match op with
  | call_constructor => snd (MainComponentsRegistry_MainComponentsRegistry w)
  | call_sharedProviderRegistry this => snd (sharedProviderRegistry this w)
  | call_initHybrid cls => snd (initHybrid cls w)
  | call_registerNatives => snd (registerNatives w)
  end.

(** The states that calls of the glue alone lead to from [w0]: nothing else
  touches the state in between. *)
Inductive reachable (w0 : World) : World -> Prop :=
  | reachable_start : reachable w0 w0
  | reachable_call (op : Operation) (w : World) :
      reachable w0 w -> reachable w0 (after op w).

(** A call returns normally in [w] when no exception leaves it. *)
Definition returns_normally {A : Type} (call : Exec World A) (w : World)
  : Prop :=
  returned (fst (call w)) = true.

End Runs.

(** ** What a run asks of the host *)

Section HostCalls.

Context {host : HostFramework}.

(** The state after a sequence of calls of the glue, the first call first. *)
Definition run (ops : list Operation) (w : World) : World :=
  fold_left (fun v op => after op v) ops w.

(** The calls into the host that the bodies of the glue contain. *)
Inductive HostCall : Type :=
  | host_sharedProviderRegistry
  | host_makeCxxInstance
  | host_registerHybrid (methods : list (JNINativeMethod World)).

Definition host_after (c : HostCall) (w : World) : World :=
  match c with
  | host_sharedProviderRegistry =>
      snd (CoreComponentsRegistry_sharedProviderRegistry w)
  | host_makeCxxInstance =>
      snd (makeCxxInstance MainComponentsRegistry w)
  | host_registerHybrid methods =>
      snd (registerHybrid MainComponentsRegistry methods w)
  end.

Definition host_run (calls : list HostCall) (w : World) : World :=
  fold_left (fun v c => host_after c v) calls w.

(** The host calls in the body of each entry point, in source order: none in
  the constructor (line 6), one in each of the others (lines 10, 16, 21). *)
Definition host_calls (op : Operation) : list HostCall :=
  match op with
  | call_constructor => []
  | call_sharedProviderRegistry _ => [host_sharedProviderRegistry]
  | call_initHybrid _ => [host_makeCxxInstance]
  | call_registerNatives =>
      [host_registerHybrid [makeNativeMethod "initHybrid" initHybrid]]
  end.

(** The entry points whose host call constructs or registers something. *)
Definition constructs_or_registers (op : Operation) : bool :=
  match op with
  | call_constructor => false
  | call_sharedProviderRegistry _ => false
  | call_initHybrid _ => true
  | call_registerNatives => true
  end.

End HostCalls.

(** ** A reference host *)

(** A small host on which the statements below are exercised: the registry
  of the base framework sits at a fixed address and holds the component
  names, hybrid objects are numbered in the order of their construction, and
  registration appends to a table of class descriptor and method name. *)
Module SampleHost.

Record State : Type := mk_State {
  coreRegistry : shared_ptr ComponentDescriptorProviderRegistry;
  providers : list string;
  hybrids : list jhybriddata;
  natives : list (string * string)
}.

Definition sharedProviderRegistry_impl
  : Exec State (shared_ptr ComponentDescriptorProviderRegistry) :=
  fun w => (Returned (coreRegistry w), w).

Definition makeCxxInstance_impl (T : Type) `{HybridClass T}
  : Exec State (local_ref jhybriddata) :=
  fun w =>
    let data := JHybridData (length (hybrids w)) in
    (Returned (mk_local_ref data),
     {| coreRegistry := coreRegistry w;
        providers := providers w;
        hybrids := data :: hybrids w;
        natives := natives w |}).

Definition registerHybrid_impl (T : Type) `{HybridClass T}
  (methods : list (JNINativeMethod State)) : Exec State unit :=
  fun w =>
    (Returned tt,
     {| coreRegistry := coreRegistry w;
        providers := providers w;
        hybrids := hybrids w;
        natives :=
          natives w ++ map (fun m => (kJavaDescriptor T, name m)) methods |}).

Definition host : HostFramework :=
  {| World := State;
     CoreComponentsRegistry_sharedProviderRegistry :=
       sharedProviderRegistry_impl;
     makeCxxInstance := makeCxxInstance_impl;
     registerHybrid := registerHybrid_impl |}.

Definition boot : State :=
  {| coreRegistry := shared_at 4096;
     providers := ["View"; "Text"; "ScrollView"];
     hybrids := [];
     natives := [] |}.

End SampleHost.

(** ** A host just after process start *)

(** The registry of the base framework is a function-local static of its
  accessor, built on first use, and the Java class of the hybrid is not
  loaded yet: registration under the descriptor of a class that the JVM does
  not know ends with the exception of the class lookup. *)
Module ColdHost.

Record State : Type := mk_State {
  registry : option (list string);
  loadedClasses : list string;
  hybrids : list jhybriddata;
  natives : list (string * string)
}.

Definition coreProviders : list string := ["View"; "Text"; "ScrollView"].

Definition sharedProviderRegistry_impl
  : Exec State (shared_ptr ComponentDescriptorProviderRegistry) :=
  fun w =>
    match registry w with
    | Some _ => (Returned (shared_at 4096), w)
    | None =>
        (Returned (shared_at 4096),
         {| registry := Some coreProviders;
            loadedClasses := loadedClasses w;
            hybrids := hybrids w;
            natives := natives w |})
    end.

Definition makeCxxInstance_impl (T : Type) `{HybridClass T}
  : Exec State (local_ref jhybriddata) :=
  fun w =>
    let data := JHybridData (length (hybrids w)) in
    (Returned (mk_local_ref data),
     {| registry := registry w;
        loadedClasses := loadedClasses w;
        hybrids := data :: hybrids w;
        natives := natives w |}).

Definition registerHybrid_impl (T : Type) `{HybridClass T}
  (methods : list (JNINativeMethod State)) : Exec State unit :=
  fun w =>
    if existsb (String.eqb (kJavaDescriptor T)) (loadedClasses w)
    then
      (Returned tt,
       {| registry := registry w;
          loadedClasses := loadedClasses w;
          hybrids := hybrids w;
          natives :=
            natives w ++ map (fun m => (kJavaDescriptor T, name m)) methods |})
    else (Thrown "java.lang.ClassNotFoundException", w).

Definition host : HostFramework :=
  {| World := State;
     CoreComponentsRegistry_sharedProviderRegistry :=
       sharedProviderRegistry_impl;
     makeCxxInstance := makeCxxInstance_impl;
     registerHybrid := registerHybrid_impl |}.

Definition boot : State :=
  {| registry := None;
     loadedClasses := [];
     hybrids := [];
     natives := [] |}.

End ColdHost.

(** ** Lemmas on calls *)

Section ExecLemmas.

Context {W : Type}.

(** [auto x = call(); return x;] ends as [call()] does. *)
Lemma bind_ret_same {A : Type} (call : Exec W A) (w : W) :
  (x <- call ;; ret x) w = call w.
Proof.
  simpl. destruct (call w) as [[a | what] w']; reflexivity.
Qed.

Lemma ret_run {A : Type} (a : A) (w : W) :
  (ret a : Exec W A) w = (Returned a, w).
Proof. reflexivity. Qed.

End ExecLemmas.

Section GlueLemmas.

Context {host : HostFramework}.

Lemma sharedProviderRegistry_run (this : MainComponentsRegistry) (w : World) :
  sharedProviderRegistry this w
  = CoreComponentsRegistry_sharedProviderRegistry w.
Proof. unfold sharedProviderRegistry. apply bind_ret_same. Qed.

Lemma initHybrid_run (cls : alias_ref jclass) (w : World) :
  initHybrid cls w = makeCxxInstance MainComponentsRegistry w.
Proof. unfold initHybrid. apply bind_ret_same. Qed.

(** An exception that leaves a function of the glue is one that left the
  host call it makes, in the same state; the constructor lets none out. *)
Lemma glue_exceptions_are_host_exceptions (w : World) (what : string) :
  (forall this,
      fst (sharedProviderRegistry this w) = Thrown what ->
      fst (CoreComponentsRegistry_sharedProviderRegistry w) = Thrown what)
  /\ (forall cls,
         fst (initHybrid cls w) = Thrown what ->
         fst (makeCxxInstance MainComponentsRegistry w) = Thrown what)
  /\ fst (MainComponentsRegistry_MainComponentsRegistry w) <> Thrown what.
Proof.
  repeat split.
  - intros this. now rewrite sharedProviderRegistry_run.
  - intros cls. now rewrite initHybrid_run.
  - discriminate.
Qed.


End GlueLemmas.

(** On the reference host, registration from the boot state leaves exactly
  one table entry: the method name under the descriptor of the class. *)
Example SampleHost_registerNatives_table :
  SampleHost.natives (snd (registerNatives (host := SampleHost.host)
                                           SampleHost.boot))
  = [("Lcom/healthtracker/MainComponentsRegistry;", "initHybrid")].
Proof. reflexivity. Qed.

(** On the reference host, two calls of [initHybrid] give two hybrid
  objects. *)
Example SampleHost_initHybrid_twice :
  let cls := mk_alias_ref (JClass 7) in
  let first := initHybrid (host := SampleHost.host) cls SampleHost.boot in
  let second := initHybrid (host := SampleHost.host) cls (snd first) in
  fst first = Returned (mk_local_ref (JHybridData 0))
  /\ fst second = Returned (mk_local_ref (JHybridData 1)).
Proof. split; reflexivity. Qed.

(** ** The registry accessor *)

Section Accessor.

Context {host : HostFramework}.

(** C1: for every call, [MainComponentsRegistry::sharedProviderRegistry]
  ends exactly as [CoreComponentsRegistry::sharedProviderRegistry] does in
  the same state; in particular it returns the pointer to the registry of the
  base framework, unchanged. *)
Theorem sharedProviderRegistry_returns_base_registry :
  forall (this : MainComponentsRegistry) (w : World),
    sharedProviderRegistry this w
    = CoreComponentsRegistry_sharedProviderRegistry w
    /\ fst (sharedProviderRegistry this w)
       = fst (CoreComponentsRegistry_sharedProviderRegistry w).
Proof.
  intros this w.
  assert (E : sharedProviderRegistry this w
              = CoreComponentsRegistry_sharedProviderRegistry w)
    by apply sharedProviderRegistry_run.
  split; [exact E | now rewrite E].
Qed.

(** C3: [sharedProviderRegistry] makes no change to the registry of its own.
  Whatever is taken as the state of the registry (its providers, or the whole
  state of the host), after the call it is exactly what the one call of the
  accessor of the base framework leaves: the glue adds, removes and modifies
  nothing beyond that call, which may build the registry on first use. *)
Theorem sharedProviderRegistry_changes_only_as_base_accessor :
  forall (X : Type) (registryState : World -> X)
         (this : MainComponentsRegistry) (w : World),
    registryState (snd (sharedProviderRegistry this w))
    = registryState (snd (CoreComponentsRegistry_sharedProviderRegistry w)).
Proof.
  intros X registryState this w.
  rewrite sharedProviderRegistry_run. reflexivity.
Qed.


End Accessor.

(** On a host that builds the registry on first use, the first call of
  [sharedProviderRegistry] does not leave the registry as it was: before the
  call there is none, after it the registry holds the core providers. *)
Lemma sharedProviderRegistry_first_call_builds_registry :
  ColdHost.registry ColdHost.boot = None
  /\ ColdHost.registry
       (snd (sharedProviderRegistry (host := ColdHost.host)
               MainComponentsRegistry_object ColdHost.boot))
     = Some ["View"; "Text"; "ScrollView"]
  /\ ColdHost.registry
       (snd (sharedProviderRegistry (host := ColdHost.host)
               MainComponentsRegistry_object ColdHost.boot))
     <> ColdHost.registry ColdHost.boot.
Proof.
  repeat split. discriminate.
Qed.


(** ** Construction and registration *)

Section Hybrid.

Context {host : HostFramework}.

(** C2: for every module name and every [jsInvoker],
  [MainApplicationModuleProvider] returns no native module: the null
  pointer. *)
Theorem MainApplicationModuleProvider_returns_no_module :
  forall (name : string) (jsInvoker : shared_ptr CallInvoker) (w : World),
    fst (MainApplicationModuleProvider name jsInvoker w) = Returned nullptr.
Proof. intros name jsInvoker w. reflexivity. Qed.

(** C4: no function of [MainComponentsRegistry.cpp] has an error path of its
  own.  The constructor returns normally for every input and in every state.
  [sharedProviderRegistry], [initHybrid] and [registerNatives] end, for every
  input and in every state, with the outcome of the one host call they
  make: they return normally exactly when it does, and an exception that
  leaves it leaves them, unchanged. *)
Theorem glue_outcomes_are_host_outcomes :
  forall (this : MainComponentsRegistry) (cls : alias_ref jclass) (w : World),
    returns_normally MainComponentsRegistry_MainComponentsRegistry w
    /\ fst (sharedProviderRegistry this w)
       = fst (CoreComponentsRegistry_sharedProviderRegistry w)
    /\ fst (initHybrid cls w)
       = fst (makeCxxInstance MainComponentsRegistry w)
    /\ fst (registerNatives w)
       = fst (registerHybrid MainComponentsRegistry
                [ makeNativeMethod "initHybrid" initHybrid ] w).
Proof.
  intros this cls w.
  rewrite sharedProviderRegistry_run, initHybrid_run.
  repeat split.
Qed.

(** C5: the two visible functions have no effect of their own.
  [sharedProviderRegistry] leaves exactly the state that the one call of the
  base accessor leaves, and so changes no state wherever that call changes
  none; [initHybrid] ends exactly as [makeCxxInstance] does, so that
  constructing and returning the new hybrid instance is all it does. *)
Theorem visible_functions_add_no_effect :
  forall (this : MainComponentsRegistry) (cls : alias_ref jclass) (w : World),
    snd (sharedProviderRegistry this w)
    = snd (CoreComponentsRegistry_sharedProviderRegistry w)
    /\ initHybrid cls w = makeCxxInstance MainComponentsRegistry w.
Proof.
  intros this cls w. split.
  - now rewrite sharedProviderRegistry_run.
  - apply initHybrid_run.
Qed.

(** C6: [registerNatives] hands [registerHybrid] a table of exactly one
  native method; its name is "initHybrid" and calling its function runs
  [MainComponentsRegistry::initHybrid]. *)
Theorem registerNatives_registers_initHybrid :
  forall w : World,
  exists method : JNINativeMethod World,
    registerNatives w = registerHybrid MainComponentsRegistry [method] w
    /\ method = makeNativeMethod "initHybrid" initHybrid
    /\ name method = "initHybrid"
    /\ forall (cls : alias_ref jclass) (v : World),
         fnPtr method cls v = initHybrid cls v.
Proof.
  intros w. exists (makeNativeMethod "initHybrid" initHybrid).
  repeat split.
Qed.

(** C8: [initHybrid] ignores its [jclass] argument.  For any two classes the
  calls end alike, each with the hybrid instance that [makeCxxInstance]
  constructs during that call: a second call constructs again. *)
Theorem initHybrid_ignores_jclass :
  forall (cls1 cls2 : alias_ref jclass) (w : World),
    initHybrid cls1 w = initHybrid cls2 w
    /\ initHybrid cls1 w = makeCxxInstance MainComponentsRegistry w
    /\ initHybrid cls2 (snd (initHybrid cls1 w))
       = makeCxxInstance MainComponentsRegistry
           (snd (makeCxxInstance MainComponentsRegistry w)).
Proof.
  intros cls1 cls2 w. rewrite !initHybrid_run. repeat split.
Qed.

(** C9: the default constructor has an empty body.  It returns normally and
  leaves the state as it was; the object has no field to initialise, so any
  two instances are equal. *)
Theorem constructor_is_empty :
  (forall w : World,
      MainComponentsRegistry_MainComponentsRegistry w
      = (Returned MainComponentsRegistry_object, w))
  /\ (forall a b : MainComponentsRegistry, a = b).
Proof.
  split.
  - intros w. apply ret_run.
  - intros [] []. reflexivity.
Qed.

(** C10: the descriptor of the Java class bound to the hybrid class is the
  constant "Lcom/healthtracker/MainComponentsRegistry;".  No state holds it:
  in every state [registerNatives] registers under this same descriptor. *)
Theorem kJavaDescriptor_constant :
  kJavaDescriptor MainComponentsRegistry
  = "Lcom/healthtracker/MainComponentsRegistry;"
  /\ forall w : World,
       registerNatives w
       = @registerHybrid host MainComponentsRegistry
           {| kJavaDescriptor :=
                "Lcom/healthtracker/MainComponentsRegistry;" |}
           [ makeNativeMethod "initHybrid" initHybrid ] w.
Proof. split; reflexivity. Qed.

End Hybrid.

(** On a host whose JVM has not loaded the Java class of the hybrid,
  [registerNatives] does not return normally: the exception of the class
  lookup leaves it. *)
Lemma registerNatives_throws_when_class_is_missing :
  fst (registerNatives (host := ColdHost.host) ColdHost.boot)
  = Thrown "java.lang.ClassNotFoundException"
  /\ ~ returns_normally (host := ColdHost.host) registerNatives ColdHost.boot.
Proof.
  split; [reflexivity | discriminate].
Qed.

(** On a host that builds the registry on first use, the first call of
  [sharedProviderRegistry] changes the state. *)
Lemma sharedProviderRegistry_first_call_changes_state :
  snd (sharedProviderRegistry (host := ColdHost.host)
         MainComponentsRegistry_object ColdHost.boot)
  <> ColdHost.boot.
Proof.
  discriminate.
Qed.

(** On the same host a later call changes nothing: the registry is there. *)
Example ColdHost_second_call_changes_nothing :
  let w1 := snd (sharedProviderRegistry (host := ColdHost.host)
                   MainComponentsRegistry_object ColdHost.boot) in
  snd (sharedProviderRegistry (host := ColdHost.host)
         MainComponentsRegistry_object w1)
  = w1.
Proof. reflexivity. Qed.

(** ** Sequences of calls *)

Section Sequences.

Context {host : HostFramework}.

Lemma after_host_calls (op : Operation) (w : World) :
  after op w = host_run (host_calls op) w.
Proof.
  destruct op as [| this | cls |]; simpl.
  - reflexivity.
  - now rewrite sharedProviderRegistry_run.
  - now rewrite initHybrid_run.
  - reflexivity.
Qed.

Lemma host_run_app (calls1 calls2 : list HostCall) (w : World) :
  host_run (calls1 ++ calls2) w = host_run calls2 (host_run calls1 w).
Proof. unfold host_run. apply fold_left_app. Qed.

(** X1: all that a sequence of calls of the glue does to the state is done by
  host calls, and by exactly these: one base accessor call for each
  [sharedProviderRegistry], one [makeCxxInstance] for each [initHybrid], one
  [registerHybrid] of the one-entry table for each [registerNatives], none for
  a constructor call, in the order of the calls. *)
Theorem run_is_host_run :
  forall (ops : list Operation) (w : World),
    run ops w = host_run (flat_map host_calls ops) w.
Proof.
  induction ops as [| op ops IH]; intros w.
  - reflexivity.
  - change (run (op :: ops) w) with (run ops (after op w)).
    change (flat_map host_calls (op :: ops))
      with (host_calls op ++ flat_map host_calls ops)%list.
    rewrite host_run_app, IH, after_host_calls. reflexivity.
Qed.

(** X2: a property of the host state that the three host calls keep is kept
  by the glue, over any number of calls of its entry points. *)
Theorem glue_keeps_host_invariants :
  forall Inv : World -> Prop,
    (forall v,
        Inv v -> Inv (snd (CoreComponentsRegistry_sharedProviderRegistry v))) ->
    (forall v, Inv v -> Inv (snd (makeCxxInstance MainComponentsRegistry v))) ->
    (forall methods v,
        Inv v -> Inv (snd (registerHybrid MainComponentsRegistry methods v))) ->
    forall w0 w : World, Inv w0 -> reachable w0 w -> Inv w.
Proof.
  intros Inv Hcore Hmake Hreg w0 w H0 Hreach.
  induction Hreach as [| op w Hreach IH]; [exact H0 |].
  destruct op as [| this | cls |]; simpl.
  - exact IH.
  - rewrite sharedProviderRegistry_run. now apply Hcore.
  - rewrite initHybrid_run. now apply Hmake.
  - unfold registerNatives. now apply Hreg.
Qed.

(** X3: when the base accessor changes no state, the constructor and
  accessor calls can be struck from any sequence of calls of the glue: the
  final state is that of the [initHybrid] and [registerNatives] calls
  alone. *)
Theorem run_without_reads :
  (forall v, snd (CoreComponentsRegistry_sharedProviderRegistry v) = v) ->
  forall (ops : list Operation) (w : World),
    run (filter constructs_or_registers ops) w = run ops w.
Proof.
  intros Hread. induction ops as [| op ops IH]; intros w.
  - reflexivity.
  - change (run (op :: ops) w) with (run ops (after op w)).
    destruct op as [| this | cls |]; simpl filter.
    + simpl after. apply IH.
    + simpl after. rewrite sharedProviderRegistry_run, Hread. apply IH.
    + change (run (call_initHybrid cls :: filter constructs_or_registers ops) w)
        with (run (filter constructs_or_registers ops)
                (after (call_initHybrid cls) w)).
      apply IH.
    + change (run (call_registerNatives :: filter constructs_or_registers ops) w)
        with (run (filter constructs_or_registers ops)
                (after call_registerNatives w)).
      apply IH.
Qed.

End Sequences.

Lemma glue_keeps_host_invariants_witness :
  let cls := mk_alias_ref (JClass 7) in
  SampleHost.providers
    (after (host := SampleHost.host) call_registerNatives
       (after (host := SampleHost.host) (call_initHybrid cls)
          SampleHost.boot))
  = ["View"; "Text"; "ScrollView"].
Proof.
  intros cls.
  apply (glue_keeps_host_invariants (host := SampleHost.host)
           (fun v => SampleHost.providers v = ["View"; "Text"; "ScrollView"]))
    with (w0 := SampleHost.boot).
  - intros v Hv. exact Hv.
  - intros v Hv. exact Hv.
  - intros methods v Hv. exact Hv.
  - reflexivity.
  - apply reachable_call. apply reachable_call. apply reachable_start.
Defined.

Lemma run_without_reads_witness :
  let cls := mk_alias_ref (JClass 7) in
  let this := MainComponentsRegistry_object in
  run (host := SampleHost.host)
    [call_initHybrid cls; call_registerNatives] SampleHost.boot
  = run (host := SampleHost.host)
      [call_constructor; call_initHybrid cls;
       call_sharedProviderRegistry this; call_registerNatives;
       call_sharedProviderRegistry this]
      SampleHost.boot.
Proof.
  intros cls this.
  apply (run_without_reads (host := SampleHost.host))
    with (ops := [call_constructor; call_initHybrid cls;
                  call_sharedProviderRegistry this; call_registerNatives;
                  call_sharedProviderRegistry this]).
  intros v. reflexivity.
Defined.
